(** * RBAC permission-coverage validator

    A shallow embedding of [pkg/controller/deployment/rbac_validator.go]
    and the properties of its coverage engine.

    Go slices of strings are lists of strings; a nil slice and an empty
    slice both have length 0 and range over no element, so both are the
    empty list.  A Go [error] is the message it carries; a nil error is
    [None]. *)

From Stdlib Require Import List String Ascii Bool Arith.
From Stdlib Require Import ZArith Lia.
Import ListNotations.

Open Scope list_scope.
Open Scope string_scope.

(** ** Data model *)

(** [rbacv1.PolicyRule]: the five attributes of a Kubernetes policy rule. *)
Record PolicyRule : Type := mkPolicyRule {
  Verbs : list string;
  APIGroups : list string;
  Resources : list string;
  ResourceNames : list string;
  NonResourceURLs : list string
}.

(** [rbacv1.Role], reduced to what the validator reads: the object name
    and the rules. *)
Record Role : Type := mkRole {
  Name : string;
  Rules : list PolicyRule
}.

Record RBACValidator : Type := mkRBACValidator {
  operatorRules : list PolicyRule;
  createdRoles : list Role
}.

(** A Go [error] value, identified with its message. *)
Definition error : Type := string.

(** A rule given by its four matching attributes. *)
Definition rule (groups resources verbs names : list string) : PolicyRule :=
  mkPolicyRule verbs groups resources names [].

(** Go's [len] at a slice. *)
Definition len {A : Type} (s : list A) : nat := List.length s.

(** The wildcard token. *)
Definition star : string := "*".

(** The two-character token made of two double quotes. *)
Definition quote2 : string :=
  String (ascii_of_nat 34) (String (ascii_of_nat 34) EmptyString).

(** ** Formatting primitives of the Go standard library *)

Module GoFmt.

(** [strings.Join(elems, sep)]. *)
Fixpoint Join (elems : list string) (sep : string) : string :=
  match elems with
  | [] => ""
  | [e] => e
  | e :: rest => e ++ sep ++ Join rest sep
  end.

(** The [%v] verb at a [[]string]: the elements separated by one space,
    between square brackets. *)
Definition verb_v (elems : list string) : string :=
  "[" ++ Join elems " " ++ "]".

End GoFmt.

(** ** The validator *)

Definition NewRBACValidator (rules : list PolicyRule) : RBACValidator :=
  mkRBACValidator rules [].

(** The inner loop of [sliceContains]: scan [available] until an entry is
    the wildcard or equals [req]. *)
Fixpoint found (available : list string) (req : string) : bool :=
  match available with
  | [] => false
  | avail :: rest =>
      if (avail =? star) || (avail =? req) then true else found rest req
  end.

(** [sliceContains]: all items of [required] are present in [available]. *)
Fixpoint sliceContains (available required : list string) : bool :=
  match required with
  | [] => true
  | req :: rest =>
      if negb (found available req) then false
      else sliceContains available rest
  end.

Definition ruleCovers (opRule reqRule : PolicyRule) : bool :=
  if negb (sliceContains (APIGroups opRule) (APIGroups reqRule)) then false
  else if negb (sliceContains (Resources opRule) (Resources reqRule)) then false
  else if negb (sliceContains (Verbs opRule) (Verbs reqRule)) then false
  else if (0 <? len (ResourceNames reqRule))%nat
          && (0 <? len (ResourceNames opRule))%nat
       then
         if negb (sliceContains (ResourceNames opRule) (ResourceNames reqRule))
         then false else true
       else true.

(** The scan of [operatorCanGrant] over the granted rules. *)
Fixpoint canGrantFrom (opRules : list PolicyRule) (r : PolicyRule) : bool :=
  match opRules with
  | [] => false
  | opRule :: rest => if ruleCovers opRule r then true else canGrantFrom rest r
  end.

Definition operatorCanGrant (v : RBACValidator) (r : PolicyRule) : bool :=
  canGrantFrom (operatorRules v) r.

Definition formatPolicyRule (r : PolicyRule) : string :=
  "APIGroups:" ++ GoFmt.verb_v (APIGroups r)
  ++ " Resources:" ++ GoFmt.verb_v (Resources r)
  ++ " Verbs:" ++ GoFmt.verb_v (Verbs r).

(** The error built at the first rule the operator cannot grant. *)
Definition roleError (name : string) (r : PolicyRule) : error :=
  "operator cannot create role " ++ name
  ++ ": missing permissions for " ++ formatPolicyRule r.

(** The loop of [ValidateRoleCreation] over the rules of the role. *)
Fixpoint validateRules (v : RBACValidator) (name : string)
    (rules : list PolicyRule) : option error :=
  match rules with
  | [] => None
  | r :: rest =>
      if negb (operatorCanGrant v r) then Some (roleError name r)
      else validateRules v name rest
  end.

Definition ValidateRoleCreation (v : RBACValidator) (role : Role)
    : option error :=
  validateRules v (Name role) (Rules role).

(** [ValidateAllRoles]: the errors are appended to a slice that starts
    nil, one role after the other. *)
Definition ValidateAllRoles (v : RBACValidator) (roles : list Role)
    : list error :=
  fold_left
    (fun errors role =>
       match ValidateRoleCreation v role with
       | Some err => (errors ++ [err])%list
       | None => errors
       end)
    roles [].

Definition GetMissingPermissions (v : RBACValidator) (role : Role)
    : list PolicyRule :=
  fold_left
    (fun missing r =>
       if negb (operatorCanGrant v r) then (missing ++ [r])%list else missing)
    (Rules role) [].

(** The body of the loop of [SuggestKubebuilderAnnotation]. *)
Definition suggestion (r : PolicyRule) : string :=
  let apiGroups := GoFmt.Join (APIGroups r) ";" in
  let apiGroups := if apiGroups =? "" then quote2 else apiGroups in
  let resources := GoFmt.Join (Resources r) ";" in
  let verbs := GoFmt.Join (Verbs r) ";" in
  let s := "//+kubebuilder:rbac:groups=" ++ apiGroups
           ++ ",resources=" ++ resources ++ ",verbs=" ++ verbs in
  if (0 <? len (ResourceNames r))%nat
  then s ++ ",resourceNames=" ++ GoFmt.Join (ResourceNames r) ";"
  else s.

Definition SuggestKubebuilderAnnotation (v : RBACValidator)
    (missingRules : list PolicyRule) : list string :=
  fold_left (fun suggestions r => (suggestions ++ [suggestion r])%list)
    missingRules [].

(** ** Specification-level predicates *)

(** [covered avail req]: every required item is available, or the
    available items include the wildcard. *)
Definition covered (avail req : list string) : Prop :=
  (forall x, In x req -> In x avail) \/ In star avail.

(** The resource-name condition: it constrains only when both sides name
    instances. *)
Definition namesCovered (g r : PolicyRule) : Prop :=
  ResourceNames r <> [] -> ResourceNames g <> [] ->
  covered (ResourceNames g) (ResourceNames r).

(** A granted rule [g] covers a requested rule [r] on all four axes. *)
Definition covers (g r : PolicyRule) : Prop :=
  covered (APIGroups g) (APIGroups r)
  /\ covered (Resources g) (Resources r)
  /\ covered (Verbs g) (Verbs r)
  /\ namesCovered g r.

(** The elements a selective loop appends, in the order of the input. *)
Definition collected {A B : Type} (f : A -> option B) (l : list A) : list B :=
  flat_map (fun a => match f a with Some b => [b] | None => [] end) l.

(** Equality of rules is decidable. *)
Definition PolicyRule_eq_dec (x y : PolicyRule) : {x = y} + {x <> y}.
Proof.
  decide equality; apply (list_eq_dec string_dec).
Defined.

(** The groups field as the specification describes it: the token of two
    double quotes for no group and for the core group alone, the joined
    groups otherwise. *)
Definition groupsField (groups : list string) : string :=
  match groups with
  | [] => quote2
  | [EmptyString] => quote2
  | _ => GoFmt.Join groups ";"
  end.

(** The clause for the resource names: absent when there are none. *)
Definition namesClause (names : list string) : string :=
  match names with
  | [] => ""
  | _ => ",resourceNames=" ++ GoFmt.Join names ";"
  end.

(** ** Fixtures taken from the validator's tests *)

Module Fixtures.

(** The operator rules of the test "should fail when operator lacks
    serviceaccounts/token permissions". *)
Definition lackingRules : list PolicyRule :=
  [rule [""] ["serviceaccounts"; "configmaps"]
     ["get"; "list"; "create"; "update"; "patch"; "delete"] []].

(** The same rules with the sub-resource grant added. *)
Definition fixedRules : list PolicyRule :=
  (lackingRules ++ [rule [""] ["serviceaccounts/token"] ["create"] []])%list.

Definition tokenRule : PolicyRule :=
  rule [""] ["serviceaccounts/token"] ["create"] ["cert-manager"].

Definition tokenRequest : Role :=
  mkRole "cert-manager-tokenrequest" [tokenRule].

Definition configReader : Role :=
  mkRole "config-reader" [rule [""] ["configmaps"] ["get"; "list"] []].

Definition podExec : Role :=
  mkRole "pod-exec"
    [rule [""] ["configmaps"] ["get"] [];
     rule [""] ["pods/exec"] ["create"] [];
     rule ["apps"] ["deployments"] ["delete"] []].

Definition tokenRequestError : error :=
  "operator cannot create role cert-manager-tokenrequest: "
  ++ "missing permissions for "
  ++ "APIGroups:[] Resources:[serviceaccounts/token] Verbs:[create]".

Definition podExecError : error :=
  "operator cannot create role pod-exec: missing permissions for "
  ++ "APIGroups:[] Resources:[pods/exec] Verbs:[create]".

End Fixtures.

(** ** Helpers of the validator's tests *)

(** The outcome of running a Go function: a value, a run-time panic, or
    a loop that was not given enough steps. *)
Inductive result (A : Type) : Type :=
| Ok (a : A)
| Panic
| NoFuel.

Arguments Ok {A} a.
Arguments Panic {A}.
Arguments NoFuel {A}.

(** Go's [len] at a string, an [int]. *)
Definition strlen (s : string) : Z := Z.of_nat (String.length s).

(** The slice expression [s[i:j]], which panics out of range. *)
Definition slice (s : string) (i j : Z) : result string :=
  if ((0 <=? i) && (i <=? j) && (j <=? strlen s))%Z
  then Ok (substring (Z.to_nat i) (Z.to_nat (j - i)) s)
  else Panic.

(** The loop of [findInString], started at index [i]. *)
Fixpoint findLoop (fuel : nat) (s substr : string) (i : Z) : result Z :=
  match fuel with
  | O => NoFuel
  | S fuel' =>
      if (i <=? strlen s - strlen substr)%Z then
        match slice s i (i + strlen substr) with
        | Ok piece =>
            if piece =? substr then Ok i
            else findLoop fuel' s substr (i + 1)
        | Panic => Panic
        | NoFuel => NoFuel
        end
      else Ok (-1)%Z
  end.

Definition findInString (s substr : string) : result Z :=
  findLoop (String.length s + 2) s substr 0.

Definition containsString (s substr : string) : result bool :=
  if (strlen s >=? strlen substr)%Z then
    if s =? substr then Ok true
    else if (strlen s >? strlen substr)%Z then
      match findInString s substr with
      | Ok r => Ok (r >=? 0)%Z
      | Panic => Panic
      | NoFuel => NoFuel
      end
    else Ok false
  else Ok false.

(** [substr] occurs in [s] after [i] characters. *)
Definition occursAt (i : nat) (substr s : string) : Prop :=
  exists pre post, s = pre ++ substr ++ post /\ String.length pre = i.

(** [substr] occurs in [s]. *)
Definition occurs (substr s : string) : Prop :=
  exists pre post, s = pre ++ substr ++ post.

(** ** The role catalog of the end-to-end tests *)

Module E2E.

(** The manifests [getAllRolesToCreate] loads, in its order. *)
Definition roleFiles : list string :=
  ["cert-manager-deployment/controller/cert-manager-tokenrequest-role.yaml";
   "cert-manager-deployment/controller/cert-manager-leaderelection-role.yaml";
   "cert-manager-deployment/webhook/cert-manager-webhook-dynamic-serving-role.yaml";
   "cert-manager-deployment/cainjector/cert-manager-cainjector-leaderelection-role.yaml";
   "istio-csr/cert-manager-istio-csr-role.yaml";
   "istio-csr/cert-manager-istio-csr-leases-role.yaml"].

Section Catalog.

(** The contents of a manifest. *)
Variable bytes : Type.

(** [assets.Asset]: the contents of the named manifest, or an error. *)
Variable Asset : string -> bytes + error.

(** [yaml.Unmarshal] into a role: the role as filled, and the error. *)
Variable Unmarshal : bytes -> Role -> Role * option error.

Definition parseRoleFromYAML (data : bytes) : Role * option error :=
  Unmarshal data (mkRole "" []).

(** The loop of [getAllRolesToCreate] over the manifests left, with the
    roles loaded and the lines logged so far. *)
Fixpoint loadRoles (files : list string) (roles : list Role)
    (log : list string) : list string * (list Role + error) :=
  match files with
  | [] => (log, inl roles)
  | roleFile :: rest =>
      match Asset roleFile with
      | inr err =>
          loadRoles rest roles
            (log ++ [("Skipping " ++ roleFile ++ ": " ++ err)%string])%list
      | inl roleData =>
          match parseRoleFromYAML roleData with
          | (_, Some err) => (log, inr err)
          | (role, None) => loadRoles rest (roles ++ [role])%list log
          end
      end
  end.

(** [getAllRolesToCreate]: the lines logged, and the roles or the error. *)
Definition getAllRolesToCreate : list string * (list Role + error) :=
  loadRoles roleFiles [] [].

(** The lines logged for the manifests of [files] that are not there. *)
Definition skipped (files : list string) : list string :=
  flat_map (fun f => match Asset f with
                     | inr err => [("Skipping " ++ f ++ ": " ++ err)%string]
                     | inl _ => []
                     end) files.

(** The roles parsed from the manifests of [files] that are there. *)
Definition loaded (files : list string) : list Role :=
  flat_map (fun f => match Asset f with
                     | inl data => [fst (parseRoleFromYAML data)]
                     | inr _ => []
                     end) files.

(** Every manifest of [files] that is there parses without error. *)
Definition wellFormed (files : list string) : Prop :=
  forall f data,
    In f files -> Asset f = inl data -> snd (parseRoleFromYAML data) = None.

End Catalog.

End E2E.

(** ** The scans, characterised *)

Section Scans.

Lemma found_spec (available : list string) (req : string) :
  found available req = true <-> In star available \/ In req available.
Proof.
  induction available as [|a rest IH]; simpl.
  - split; [discriminate | intros [[]|[]]].
  - destruct (a =? star) eqn:Ea; simpl.
    + apply String.eqb_eq in Ea. split; auto.
    + destruct (a =? req) eqn:Er.
      * apply String.eqb_eq in Er. split; auto.
      * apply String.eqb_neq in Ea, Er. rewrite IH.
        split; intros [H|H]; auto; destruct H as [H|H]; auto; congruence.
Qed.

Lemma sliceContains_forall (available required : list string) :
  sliceContains available required = true
  <-> forall x, In x required -> found available x = true.
Proof.
  induction required as [|r rest IH]; simpl.
  - split; [intros _ x [] | reflexivity].
  - destruct (found available r) eqn:E; simpl.
    + rewrite IH. split.
      * intros H x [<-|Hx]; auto.
      * intros H x Hx. apply H. now right.
    + split; [discriminate|].
      intros H. rewrite (H r) in E; [discriminate | now left].
Qed.

Lemma sliceContains_spec (available required : list string) :
  sliceContains available required = true <-> covered available required.
Proof.
  rewrite sliceContains_forall. unfold covered. split.
  - intros H. destruct (in_dec string_dec star available) as [Hs|Hs].
    + now right.
    + left. intros x Hx. apply H, found_spec in Hx. tauto.
  - intros [H|H] x Hx; apply found_spec; auto.
Qed.

Lemma len_pos_nonempty {A : Type} (l : list A) :
  (0 <? len l)%nat = true <-> l <> [].
Proof.
  destruct l; simpl; split; try discriminate; try congruence; auto.
Qed.

Lemma ruleCovers_spec (g r : PolicyRule) :
  ruleCovers g r = true <-> covers g r.
Proof.
  unfold ruleCovers, covers, namesCovered.
  rewrite <- !sliceContains_spec.
  destruct (sliceContains (APIGroups g) (APIGroups r)); simpl;
    [|split; [discriminate | intros (H & _); discriminate]].
  destruct (sliceContains (Resources g) (Resources r)); simpl;
    [|split; [discriminate | intros (_ & H & _); discriminate]].
  destruct (sliceContains (Verbs g) (Verbs r)); simpl;
    [|split; [discriminate | intros (_ & _ & H & _); discriminate]].
  destruct (0 <? len (ResourceNames r))%nat eqn:Er; simpl.
  - destruct (0 <? len (ResourceNames g))%nat eqn:Eg; simpl.
    + apply len_pos_nonempty in Er, Eg.
      destruct (sliceContains (ResourceNames g) (ResourceNames r)); simpl.
      * tauto.
      * split; [discriminate|]. intros (_ & _ & _ & H). now apply H.
    + split; auto. intros _. repeat split; auto.
      intros _ Hg. apply len_pos_nonempty in Hg. congruence.
  - split; auto. intros _. repeat split; auto.
    intros Hr. apply len_pos_nonempty in Hr. congruence.
Qed.

Lemma canGrantFrom_spec (G : list PolicyRule) (r : PolicyRule) :
  canGrantFrom G r = true <-> exists g, In g G /\ ruleCovers g r = true.
Proof.
  induction G as [|g rest IH]; simpl.
  - split; [discriminate | intros (g & [] & _)].
  - destruct (ruleCovers g r) eqn:E.
    + split; auto. intros _. exists g. auto.
    + rewrite IH. split.
      * intros (g' & Hin & Hc). exists g'. auto.
      * intros (g' & [<-|Hin] & Hc); [congruence|]. exists g'. auto.
Qed.

End Scans.

(** ** Single-rule coverage *)

(** C1: the single-rule coverage test over the granted rules [G] answers
    true exactly when some granted rule covers the requested rule on the
    API groups, the resources, the verbs (each by containment or by the
    wildcard) and on the resource names, which constrain only when both
    rules name instances. *)
Theorem operatorCanGrant_iff_some_rule_covers
    (G : list PolicyRule) (R : PolicyRule) :
  operatorCanGrant (NewRBACValidator G) R = true
  <-> exists g, In g G
      /\ ((forall x, In x (APIGroups R) -> In x (APIGroups g))
          \/ In "*" (APIGroups g))
      /\ ((forall x, In x (Resources R) -> In x (Resources g))
          \/ In "*" (Resources g))
      /\ ((forall x, In x (Verbs R) -> In x (Verbs g))
          \/ In "*" (Verbs g))
      /\ (ResourceNames R <> [] -> ResourceNames g <> [] ->
          (forall x, In x (ResourceNames R) -> In x (ResourceNames g))
          \/ In "*" (ResourceNames g)).
Proof.
  unfold operatorCanGrant. simpl. rewrite canGrantFrom_spec.
  split; intros (g & Hin & H); exists g; split; auto.
  - now apply ruleCovers_spec in H.
  - now apply ruleCovers_spec.
Qed.

(** ** Reflexivity and the wildcard *)

Section Containment.

Lemma found_here (req : string) (rest : list string) :
  found (req :: rest) req = true.
Proof.
  simpl. rewrite String.eqb_refl. now rewrite orb_true_r.
Qed.

Lemma found_weaken (a req : string) (available : list string) :
  found available req = true -> found (a :: available) req = true.
Proof.
  intros H. simpl. rewrite H. now destruct ((a =? star) || (a =? req)).
Qed.

Lemma sliceContains_weaken (a : string) (available required : list string) :
  sliceContains available required = true ->
  sliceContains (a :: available) required = true.
Proof.
  rewrite !sliceContains_forall. intros H x Hx.
  now apply found_weaken, H.
Qed.

Lemma sliceContains_refl (l : list string) : sliceContains l l = true.
Proof.
  induction l as [|a l IH].
  - reflexivity.
  - change (sliceContains (a :: l) (a :: l))
      with (if negb (found (a :: l) a) then false
            else sliceContains (a :: l) l).
    rewrite found_here. simpl negb. cbv iota.
    now apply sliceContains_weaken.
Qed.

Lemma sliceContains_star (required : list string) :
  sliceContains [star] required = true.
Proof.
  induction required as [|r rest IH]; [reflexivity|].
  simpl. exact IH.
Qed.

Lemma sliceContains_missing (available required : list string) (x : string) :
  In x required -> ~ In x available -> ~ In star available ->
  sliceContains available required = false.
Proof.
  intros Hx Ha Hs.
  destruct (sliceContains available required) eqn:E; [|reflexivity].
  apply sliceContains_spec in E. destruct E as [E|E]; [|contradiction].
  elim Ha. now apply E.
Qed.

Lemma canGrantFrom_none (G : list PolicyRule) (r : PolicyRule) :
  (forall g, In g G -> ruleCovers g r = false) -> canGrantFrom G r = false.
Proof.
  intros H. destruct (canGrantFrom G r) eqn:E; [|reflexivity].
  apply canGrantFrom_spec in E. destruct E as (g & Hin & Hc).
  rewrite (H g Hin) in Hc. discriminate.
Qed.

End Containment.

(** What [ruleCovers] computes on two rules with the same API groups,
    resources and verbs.  A granted rule without resource names covers a
    requested rule that names instances, as it should.  The guard of the
    name check also lets a granted rule that names instances cover a
    requested rule without resource names, which stands for all
    instances: there the code approves more than the operator holds.
    When both rules carry names the answer is the containment test on
    the names. *)
Theorem resource_names_compared_only_when_both_present (g r : PolicyRule) :
  APIGroups g = APIGroups r ->
  Resources g = Resources r ->
  Verbs g = Verbs r ->
  (ResourceNames g = [] -> ResourceNames r <> [] -> ruleCovers g r = true)
  /\ (ResourceNames g <> [] -> ResourceNames r = [] -> ruleCovers g r = true)
  /\ (ResourceNames g <> [] -> ResourceNames r <> [] ->
      ruleCovers g r = sliceContains (ResourceNames g) (ResourceNames r)).
Proof.
  intros Hg Hr Hv. unfold ruleCovers.
  rewrite Hg, Hr, Hv, !sliceContains_refl. simpl negb. cbv iota.
  repeat split.
  - intros E _. rewrite E. simpl. now rewrite andb_false_r.
  - intros _ E. rewrite E. reflexivity.
  - intros Eg Er. apply len_pos_nonempty in Eg, Er. rewrite Eg, Er. simpl.
    now destruct (sliceContains (ResourceNames g) (ResourceNames r)).
Qed.

Lemma resource_names_compared_only_when_both_present_witness :
  ruleCovers (rule [""] ["secrets"] ["get"] [])
             (rule [""] ["secrets"] ["get"] ["cert-manager"]) = true
  /\ ruleCovers (rule [""] ["secrets"] ["get"] ["cert-manager"])
                (rule [""] ["secrets"] ["get"] []) = true.
Proof.
  split.
  - apply (proj1 (resource_names_compared_only_when_both_present
                    (rule [""] ["secrets"] ["get"] [])
                    (rule [""] ["secrets"] ["get"] ["cert-manager"])
                    eq_refl eq_refl eq_refl)).
    + reflexivity.
    + discriminate.
  - apply (proj1 (proj2 (resource_names_compared_only_when_both_present
                    (rule [""] ["secrets"] ["get"] ["cert-manager"])
                    (rule [""] ["secrets"] ["get"] [])
                    eq_refl eq_refl eq_refl))).
    + discriminate.
    + reflexivity.
Defined.

(** C2: the reverse direction of the resource-name asymmetry fails in
    the code.  The operator holds [get] on the one secret [cert-manager];
    the requested rule is [get] on secrets with no resource names, that
    is on every secret; the other attributes are equal.  The requested
    rule must not be covered, yet [ruleCovers] and the coverage test
    answer true and validation of a role with that rule returns no error:
    the validator, documented to check that a role can be created without
    privilege escalation, approves the escalation. *)
Lemma named_grant_covers_unnamed_request :
  APIGroups (rule [""] ["secrets"] ["get"] ["cert-manager"])
  = APIGroups (rule [""] ["secrets"] ["get"] [])
  /\ Resources (rule [""] ["secrets"] ["get"] ["cert-manager"])
     = Resources (rule [""] ["secrets"] ["get"] [])
  /\ Verbs (rule [""] ["secrets"] ["get"] ["cert-manager"])
     = Verbs (rule [""] ["secrets"] ["get"] [])
  /\ ResourceNames (rule [""] ["secrets"] ["get"] ["cert-manager"]) <> []
  /\ ResourceNames (rule [""] ["secrets"] ["get"] []) = []
  /\ ruleCovers (rule [""] ["secrets"] ["get"] ["cert-manager"])
                (rule [""] ["secrets"] ["get"] []) = true
  /\ operatorCanGrant
       (NewRBACValidator [rule [""] ["secrets"] ["get"] ["cert-manager"]])
       (rule [""] ["secrets"] ["get"] []) = true
  /\ ValidateRoleCreation
       (NewRBACValidator [rule [""] ["secrets"] ["get"] ["cert-manager"]])
       (mkRole "all-secrets" [rule [""] ["secrets"] ["get"] []]) = None
  /\ GetMissingPermissions
       (NewRBACValidator [rule [""] ["secrets"] ["get"] ["cert-manager"]])
       (mkRole "all-secrets" [rule [""] ["secrets"] ["get"] []]) = [].
Proof.
  split; [reflexivity|]. split; [reflexivity|]. split; [reflexivity|].
  split; [discriminate|]. split; [reflexivity|].
  split; [reflexivity|]. split; [reflexivity|].
  split; reflexivity.
Qed.

(** C3: resource tokens are compared as whole strings.  When every
    granted rule lists the base resource but neither the compound token
    [base/sub] nor the wildcard among its resources, a requested rule
    whose resources include [base/sub] is covered by none of them,
    whatever their verbs, and the coverage test answers false. *)
Theorem no_subresource_inference
    (G : list PolicyRule) (R : PolicyRule) (base sub : string) :
  In (base ++ "/" ++ sub) (Resources R) ->
  (forall g, In g G ->
     In base (Resources g)
     /\ ~ In (base ++ "/" ++ sub) (Resources g)
     /\ ~ In "*" (Resources g)) ->
  (forall g, In g G -> ruleCovers g R = false)
  /\ operatorCanGrant (NewRBACValidator G) R = false.
Proof.
  intros HR HG.
  assert (Hnone : forall g, In g G -> ruleCovers g R = false).
  { intros g Hin. destruct (HG g Hin) as (_ & Hc & Hs).
    unfold ruleCovers.
    rewrite (sliceContains_missing (Resources g) (Resources R) _ HR Hc Hs).
    now destruct (sliceContains (APIGroups g) (APIGroups R)). }
  split; [exact Hnone|].
  now apply canGrantFrom_none.
Qed.

Lemma no_subresource_inference_witness :
  (forall g, In g [rule [""] ["pods"] ["*"] []] ->
     ruleCovers g (rule [""] ["pods/exec"] ["create"] []) = false)
  /\ operatorCanGrant (NewRBACValidator [rule [""] ["pods"] ["*"] []])
       (rule [""] ["pods/exec"] ["create"] []) = false.
Proof.
  apply (no_subresource_inference
           [rule [""] ["pods"] ["*"] []]
           (rule [""] ["pods/exec"] ["create"] []) "pods" "exec").
  - simpl. now left.
  - intros g [<-|[]]. simpl. repeat split.
    + now left.
    + intros [H|[]]. discriminate.
    + intros [H|[]]. discriminate.
Defined.

(** C4: a granted rule whose API groups, resources and verbs are each
    the single wildcard, and which names no instance, covers every
    requested rule; the coverage test answers true as soon as such a rule
    is among the granted ones. *)
Theorem wildcard_universality
    (G : list PolicyRule) (g R : PolicyRule) :
  APIGroups g = ["*"] -> Resources g = ["*"] -> Verbs g = ["*"] ->
  ResourceNames g = [] ->
  In g G ->
  ruleCovers g R = true /\ operatorCanGrant (NewRBACValidator G) R = true.
Proof.
  intros Hg Hr Hv Hn Hin.
  assert (Hc : ruleCovers g R = true).
  { unfold ruleCovers. rewrite Hg, Hr, Hv, Hn.
    fold star. rewrite !sliceContains_star. simpl.
    now rewrite andb_false_r. }
  split; [exact Hc|].
  apply canGrantFrom_spec. now exists g.
Qed.

Lemma wildcard_universality_witness :
  ruleCovers (rule ["*"] ["*"] ["*"] [])
    (rule ["cert-manager.io"] ["certificates/status"] ["update"] ["web"])
  = true
  /\ operatorCanGrant
       (NewRBACValidator [rule [""] ["pods"] ["get"] [];
                          rule ["*"] ["*"] ["*"] []])
       (rule ["cert-manager.io"] ["certificates/status"] ["update"] ["web"])
     = true.
Proof.
  apply (wildcard_universality
           [rule [""] ["pods"] ["get"] []; rule ["*"] ["*"] ["*"] []]
           (rule ["*"] ["*"] ["*"] []));
    try reflexivity.
  simpl. right. now left.
Defined.

(** ** Loops that append to a result slice *)

Section Accumulate.

Context {A B : Type}.

Lemma fold_append_collected (f : A -> option B) (l : list A) (acc : list B) :
  fold_left
    (fun out a => match f a with Some b => (out ++ [b])%list | None => out end)
    l acc
  = (acc ++ collected f l)%list.
Proof.
  revert acc. induction l as [|a l IH]; intros acc; simpl.
  - now rewrite app_nil_r.
  - rewrite IH. destruct (f a); simpl; [|reflexivity].
    now rewrite <- app_assoc.
Qed.

Lemma collected_length (f : A -> option B) (l : list A) :
  List.length (collected f l)
  = List.length
      (filter (fun a => match f a with Some _ => true | None => false end) l).
Proof.
  induction l as [|a l IH]; simpl; [reflexivity|].
  destruct (f a); simpl; now rewrite ?IH.
Qed.

Lemma collected_none (f : A -> option B) (l : list A) :
  (forall a, In a l -> f a = None) -> collected f l = [].
Proof.
  induction l as [|a l IH]; simpl; intros H; [reflexivity|].
  rewrite (H a) by now left. simpl. apply IH. intros x Hx. apply H. now right.
Qed.

Lemma fold_append_filter (p : A -> bool) (l acc : list A) :
  fold_left (fun out a => if p a then (out ++ [a])%list else out) l acc
  = (acc ++ filter p l)%list.
Proof.
  revert acc. induction l as [|a l IH]; intros acc; simpl.
  - now rewrite app_nil_r.
  - rewrite IH. destruct (p a); [|reflexivity].
    now rewrite <- app_assoc.
Qed.

End Accumulate.

Section Validation.

Variable v : RBACValidator.

Lemma ValidateAllRoles_collected (roles : list Role) :
  ValidateAllRoles v roles = collected (ValidateRoleCreation v) roles.
Proof.
  unfold ValidateAllRoles.
  now rewrite (fold_append_collected (ValidateRoleCreation v) roles []).
Qed.

Lemma validateRules_find (name : string) (rules : list PolicyRule) :
  validateRules v name rules
  = option_map (roleError name)
      (find (fun r => negb (operatorCanGrant v r)) rules).
Proof.
  induction rules as [|r rest IH]; simpl; [reflexivity|].
  now destruct (operatorCanGrant v r).
Qed.

Lemma validateRules_first (name : string) (pre post : list PolicyRule)
    (r : PolicyRule) :
  (forall x, In x pre -> operatorCanGrant v x = true) ->
  operatorCanGrant v r = false ->
  validateRules v name (pre ++ r :: post) = Some (roleError name r).
Proof.
  induction pre as [|p pre IH]; simpl; intros Hpre Hr.
  - now rewrite Hr.
  - rewrite (Hpre p) by now left. simpl. apply IH; auto.
Qed.

Lemma validateRules_none (name : string) (rules : list PolicyRule) :
  validateRules v name rules = None
  <-> forall r, In r rules -> operatorCanGrant v r = true.
Proof.
  induction rules as [|r rest IH]; simpl.
  - split; [intros _ x [] | reflexivity].
  - destruct (operatorCanGrant v r) eqn:E; simpl.
    + rewrite IH. split.
      * intros H x [<-|Hx]; auto.
      * intros H x Hx. apply H. now right.
    + split; [discriminate|]. intros H.
      rewrite (H r) in E; [discriminate | now left].
Qed.

Lemma GetMissingPermissions_filter (role : Role) :
  GetMissingPermissions v role
  = filter (fun r => negb (operatorCanGrant v r)) (Rules role).
Proof.
  unfold GetMissingPermissions.
  now rewrite (fold_append_filter
                 (fun r => negb (operatorCanGrant v r)) (Rules role) []).
Qed.

End Validation.

(** ** The scenarios of the tests *)

Example lacking_fails :
  ValidateRoleCreation (NewRBACValidator Fixtures.lackingRules)
    Fixtures.tokenRequest
  = Some Fixtures.tokenRequestError.
Proof. reflexivity. Qed.

Example fixed_passes :
  ValidateRoleCreation (NewRBACValidator Fixtures.fixedRules)
    Fixtures.tokenRequest
  = None.
Proof. reflexivity. Qed.

Example missing_token_rule :
  GetMissingPermissions (NewRBACValidator Fixtures.lackingRules)
    Fixtures.tokenRequest
  = [Fixtures.tokenRule].
Proof. reflexivity. Qed.

Example suggestion_core_group :
  SuggestKubebuilderAnnotation (NewRBACValidator [])
    [rule [""] ["serviceaccounts/token"] ["create"] []]
  = ["//+kubebuilder:rbac:groups=" ++ quote2
     ++ ",resources=serviceaccounts/token,verbs=create"].
Proof. reflexivity. Qed.

Example suggestion_with_names :
  SuggestKubebuilderAnnotation (NewRBACValidator []) [Fixtures.tokenRule]
  = ["//+kubebuilder:rbac:groups=" ++ quote2
     ++ ",resources=serviceaccounts/token,verbs=create"
     ++ ",resourceNames=cert-manager"].
Proof. reflexivity. Qed.

Example suggestion_joins_in_order :
  SuggestKubebuilderAnnotation (NewRBACValidator [])
    [rule ["apps"; ""; "apps"] ["b"; "a"] ["watch"; "get"] ["y"; "x"]]
  = ["//+kubebuilder:rbac:groups=apps;;apps,resources=b;a,verbs=watch;get"
     ++ ",resourceNames=y;x"].
Proof. reflexivity. Qed.

(** ** Role validation *)

(** C5: aggregate validation returns the errors of the grant requests
    that fail single-role validation, one each, in the order of the
    input, and nothing for those that pass: there are as many errors as
    failing requests, the input [A (fails); B (passes); C (fails)] gives
    A's error and then C's, and an input whose requests all pass gives the
    empty output. *)
Theorem ValidateAllRoles_errors_in_input_order (v : RBACValidator) :
  (forall roles,
     ValidateAllRoles v roles
     = flat_map (fun role => match ValidateRoleCreation v role with
                             | Some err => [err]
                             | None => []
                             end) roles)
  /\ (forall roles,
        List.length (ValidateAllRoles v roles)
        = List.length
            (filter (fun role => match ValidateRoleCreation v role with
                                 | Some _ => true
                                 | None => false
                                 end) roles))
  /\ (forall A B C errA errC,
        ValidateRoleCreation v A = Some errA ->
        ValidateRoleCreation v B = None ->
        ValidateRoleCreation v C = Some errC ->
        ValidateAllRoles v [A; B; C] = [errA; errC])
  /\ (forall roles,
        (forall role, In role roles -> ValidateRoleCreation v role = None) ->
        ValidateAllRoles v roles = []).
Proof.
  split; [|split; [|split]].
  - intros roles. apply ValidateAllRoles_collected.
  - intros roles. rewrite ValidateAllRoles_collected. apply collected_length.
  - intros A B C errA errC HA HB HC.
    rewrite ValidateAllRoles_collected. unfold collected. simpl.
    now rewrite HA, HB, HC.
  - intros roles H. rewrite ValidateAllRoles_collected.
    now apply collected_none.
Qed.

Lemma ValidateAllRoles_errors_in_input_order_witness :
  ValidateAllRoles (NewRBACValidator Fixtures.lackingRules)
    [Fixtures.tokenRequest; Fixtures.configReader; Fixtures.podExec]
  = [Fixtures.tokenRequestError; Fixtures.podExecError]
  /\ ValidateAllRoles (NewRBACValidator Fixtures.lackingRules)
       [Fixtures.configReader; Fixtures.configReader]
     = [].
Proof.
  split.
  - apply (proj1 (proj2 (proj2
             (ValidateAllRoles_errors_in_input_order
                (NewRBACValidator Fixtures.lackingRules)))));
      reflexivity.
  - apply (proj2 (proj2 (proj2
             (ValidateAllRoles_errors_in_input_order
                (NewRBACValidator Fixtures.lackingRules))))).
    intros role [<-|[<-|[]]]; reflexivity.
Defined.

(** C6: single-role validation returns no error exactly when the
    coverage test accepts every rule of the grant request.  Otherwise the
    rules split at the first one the test rejects, and the one error
    returned carries the name of the grant request and the API groups,
    resources and verbs of that rule only; the rules after it have no
    part in the error. *)
Theorem ValidateRoleCreation_reports_first_uncovered
    (v : RBACValidator) (role : Role) :
  (ValidateRoleCreation v role = None
   <-> forall r, In r (Rules role) -> operatorCanGrant v r = true)
  /\ (forall pre r post,
        Rules role = (pre ++ r :: post)%list ->
        (forall x, In x pre -> operatorCanGrant v x = true) ->
        operatorCanGrant v r = false ->
        ValidateRoleCreation v role
        = Some ("operator cannot create role " ++ Name role
                ++ ": missing permissions for "
                ++ "APIGroups:" ++ GoFmt.verb_v (APIGroups r)
                ++ " Resources:" ++ GoFmt.verb_v (Resources r)
                ++ " Verbs:" ++ GoFmt.verb_v (Verbs r)))
  /\ (ValidateRoleCreation v role <> None ->
      exists pre r post,
        Rules role = (pre ++ r :: post)%list
        /\ (forall x, In x pre -> operatorCanGrant v x = true)
        /\ operatorCanGrant v r = false).
Proof.
  unfold ValidateRoleCreation. split; [|split].
  - apply validateRules_none.
  - intros pre r post E Hpre Hr. rewrite E.
    now apply validateRules_first.
  - generalize (Name role). induction (Rules role) as [|r rest IH];
      simpl; intros name H; [congruence|].
    destruct (operatorCanGrant v r) eqn:E; simpl in H.
    + destruct (IH name H) as (pre & r' & post & -> & Hpre & Hr').
      exists (r :: pre), r', post. split; [reflexivity|]. split; [|exact Hr'].
      intros x [<-|Hx]; auto.
    + exists [], r, rest. split; [reflexivity|]. split; [intros x []|exact E].
Qed.

Lemma ValidateRoleCreation_reports_first_uncovered_witness :
  ValidateRoleCreation (NewRBACValidator Fixtures.lackingRules)
    Fixtures.podExec
  = Some Fixtures.podExecError.
Proof.
  apply (proj1 (proj2
           (ValidateRoleCreation_reports_first_uncovered
              (NewRBACValidator Fixtures.lackingRules) Fixtures.podExec))
           [rule [""] ["configmaps"] ["get"] []]
           (rule [""] ["pods/exec"] ["create"] [])
           [rule ["apps"] ["deployments"] ["delete"] []]).
  - reflexivity.
  - intros x [<-|[]]. reflexivity.
  - reflexivity.
Defined.

(** ** Missing permissions *)

Lemma count_occ_filter_rules (p : PolicyRule -> bool)
    (l : list PolicyRule) (r : PolicyRule) :
  count_occ PolicyRule_eq_dec (filter p l) r
  = if p r then count_occ PolicyRule_eq_dec l r else 0.
Proof.
  induction l as [|a l IH]; simpl.
  - now destruct (p r).
  - destruct (PolicyRule_eq_dec a r) as [->|Hne].
    + destruct (p r) eqn:E; simpl; rewrite IH; [|reflexivity].
      now destruct (PolicyRule_eq_dec r r).
    + destruct (p a); simpl; [|exact IH].
      now destruct (PolicyRule_eq_dec a r).
Qed.

(** C7: missing-permission extraction returns the rules of the grant
    request that the coverage test rejects, each as it was given (resource
    names included), in the order of the input.  Nothing is merged: a
    rejected rule occurs in the output as many times as in the input, so
    two identical rejected rules both appear. *)
Theorem GetMissingPermissions_exact_sublist
    (v : RBACValidator) (role : Role) :
  GetMissingPermissions v role
  = filter (fun r => negb (operatorCanGrant v r)) (Rules role)
  /\ (forall r,
        count_occ PolicyRule_eq_dec (GetMissingPermissions v role) r
        = if operatorCanGrant v r then 0
          else count_occ PolicyRule_eq_dec (Rules role) r)
  /\ (forall name r,
        operatorCanGrant v r = false ->
        GetMissingPermissions v (mkRole name [r; r]) = [r; r]).
Proof.
  split; [|split].
  - apply GetMissingPermissions_filter.
  - intros r. rewrite GetMissingPermissions_filter, count_occ_filter_rules.
    now destruct (operatorCanGrant v r).
  - intros name r Hr. rewrite GetMissingPermissions_filter. simpl.
    now rewrite Hr.
Qed.

Lemma GetMissingPermissions_exact_sublist_witness :
  GetMissingPermissions (NewRBACValidator Fixtures.lackingRules)
    (mkRole "twice" [Fixtures.tokenRule; Fixtures.tokenRule])
  = [Fixtures.tokenRule; Fixtures.tokenRule].
Proof.
  apply (proj2 (proj2
           (GetMissingPermissions_exact_sublist
              (NewRBACValidator Fixtures.lackingRules) Fixtures.tokenRequest))).
  reflexivity.
Defined.

(** ** Suggestions *)

Section Strings.

Lemma append_assoc (a b c : string) : (a ++ b) ++ c = a ++ (b ++ c).
Proof.
  induction a as [|x a IH]; simpl; [reflexivity | now rewrite IH].
Qed.

Lemma append_empty_r (a : string) : a ++ "" = a.
Proof.
  induction a as [|x a IH]; simpl; [reflexivity | now rewrite IH].
Qed.

Lemma append_eq_empty (a b : string) : a ++ b = "" -> a = "" /\ b = "".
Proof.
  destruct a; simpl; [auto | discriminate].
Qed.

Lemma Join_empty_iff (elems : list string) (sep : string) :
  sep <> "" ->
  (GoFmt.Join elems sep = "" <-> elems = [] \/ elems = [""]).
Proof.
  intros Hsep. destruct elems as [|a [|b rest]]; simpl.
  - split; auto.
  - split.
    + intros ->. now right.
    + intros [H|H]; [discriminate | congruence].
  - split.
    + intros H. apply append_eq_empty in H. destruct H as (_ & H).
      apply append_eq_empty in H. destruct H as (H & _). contradiction.
    + intros [H|H]; discriminate.
Qed.

Lemma groupsField_code (groups : list string) :
  (if GoFmt.Join groups ";" =? "" then quote2 else GoFmt.Join groups ";")
  = groupsField groups.
Proof.
  destruct (GoFmt.Join groups ";" =? "") eqn:E.
  - apply String.eqb_eq, Join_empty_iff in E; [|discriminate].
    now destruct E as [->| ->].
  - apply String.eqb_neq in E.
    destruct groups as [|[|c a] [|b rest]]; try reflexivity; now elim E.
Qed.

Lemma suggestion_form (r : PolicyRule) :
  suggestion r
  = "//+kubebuilder:rbac:groups=" ++ groupsField (APIGroups r)
    ++ ",resources=" ++ GoFmt.Join (Resources r) ";"
    ++ ",verbs=" ++ GoFmt.Join (Verbs r) ";"
    ++ namesClause (ResourceNames r).
Proof.
  unfold suggestion. cbv zeta. rewrite groupsField_code.
  destruct (ResourceNames r) as [|n names];
    cbn [len List.length Nat.ltb Nat.leb namesClause].
  - now rewrite append_empty_r.
  - now rewrite !append_assoc.
Qed.

Lemma SuggestKubebuilderAnnotation_map (v : RBACValidator)
    (rules : list PolicyRule) :
  SuggestKubebuilderAnnotation v rules = map suggestion rules.
Proof.
  unfold SuggestKubebuilderAnnotation.
  rewrite (fold_append_collected (fun r => Some (suggestion r)) rules []).
  simpl. unfold collected. induction rules as [|r rest IH]; simpl;
    [reflexivity | now rewrite IH].
Qed.

End Strings.

(** C8: suggestion rendering gives one string for each input rule, in the
    order of the input.  Each string is the marker [//+kubebuilder:rbac:]
    followed by [groups=], [,resources=] and [,verbs=] with the values of
    the attribute joined by a semicolon as they stand; the groups field is
    the token of two double quotes when the joined groups are the empty
    string, which happens for no group and for the core group alone; the
    clause [,resourceNames=] with the joined names follows exactly when
    the rule has resource names, and its value is empty only when the
    names are the single empty name. *)
Theorem SuggestKubebuilderAnnotation_rendering
    (v : RBACValidator) (rules : list PolicyRule) :
  List.length (SuggestKubebuilderAnnotation v rules) = List.length rules
  /\ SuggestKubebuilderAnnotation v rules
     = map (fun r =>
              "//+kubebuilder:rbac:groups=" ++ groupsField (APIGroups r)
              ++ ",resources=" ++ GoFmt.Join (Resources r) ";"
              ++ ",verbs=" ++ GoFmt.Join (Verbs r) ";"
              ++ namesClause (ResourceNames r)) rules
  /\ (forall groups,
        (GoFmt.Join groups ";" = "" <-> groups = [] \/ groups = [""])
        /\ (GoFmt.Join groups ";" = "" -> groupsField groups = quote2)
        /\ (GoFmt.Join groups ";" <> "" ->
            groupsField groups = GoFmt.Join groups ";"))
  /\ (forall names,
        (namesClause names = "" <-> names = [])
        /\ (names <> [] ->
            namesClause names = ",resourceNames=" ++ GoFmt.Join names ";")
        /\ (names <> [] -> (GoFmt.Join names ";" = "" <-> names = [""]))).
Proof.
  split; [|split; [|split]].
  - rewrite SuggestKubebuilderAnnotation_map. apply length_map.
  - rewrite SuggestKubebuilderAnnotation_map. apply map_ext.
    intros r. apply suggestion_form.
  - intros groups.
    assert (Hj := Join_empty_iff groups ";").
    split; [apply Hj; discriminate|]. split.
    + intros E. apply Hj in E; [|discriminate]. now destruct E as [->| ->].
    + intros E. rewrite <- groupsField_code.
      apply String.eqb_neq in E. now rewrite E.
  - intros names. split; [|split].
    + destruct names; simpl; split; auto; discriminate.
    + destruct names; [congruence | reflexivity].
    + intros Hne. rewrite Join_empty_iff by discriminate. tauto.
Qed.

Lemma SuggestKubebuilderAnnotation_rendering_witness :
  namesClause ["cert-manager"] = ",resourceNames=cert-manager"
  /\ groupsField [""] = quote2.
Proof.
  split.
  - apply (proj1 (proj2 (proj2 (proj2 (proj2
             (SuggestKubebuilderAnnotation_rendering
                (NewRBACValidator []) [Fixtures.tokenRule])))
             ["cert-manager"]))).
    discriminate.
  - apply (proj1 (proj2 (proj1 (proj2 (proj2
             (SuggestKubebuilderAnnotation_rendering
                (NewRBACValidator []) [Fixtures.tokenRule])))
             [""]))).
    reflexivity.
Defined.

(** The last part of C8 as the specification words it does not hold: a
    rule whose resource names are the single empty name has resource
    names, and its clause is rendered with an empty value. *)
Lemma empty_name_renders_empty_value :
  ResourceNames (rule ["apps"] ["deployments"] ["get"] [""]) <> []
  /\ SuggestKubebuilderAnnotation (NewRBACValidator [])
       [rule ["apps"] ["deployments"] ["get"] [""]]
     = ["//+kubebuilder:rbac:groups=apps,resources=deployments,verbs=get"
        ++ ",resourceNames=" ++ ""].
Proof.
  split; [discriminate | reflexivity].
Qed.

(** ** No granted rule *)

(** C9: a validator is built from an empty (or nil) list of granted
    rules like from any other.  Its coverage test answers false at every
    requested rule, trivial or not, so single-role validation of a grant
    request with at least one rule returns an error, the one for its
    first rule, and aggregate validation reports it as any other
    failure. *)
Theorem empty_grant_covers_nothing :
  operatorRules (NewRBACValidator []) = []
  /\ (forall R, operatorCanGrant (NewRBACValidator []) R = false)
  /\ (forall role r,
        In r (Rules role) ->
        ValidateRoleCreation (NewRBACValidator []) role <> None)
  /\ (forall role r rest,
        Rules role = r :: rest ->
        ValidateRoleCreation (NewRBACValidator []) role
        = Some (roleError (Name role) r)
        /\ ValidateAllRoles (NewRBACValidator []) [role]
           = [roleError (Name role) r]).
Proof.
  split; [reflexivity|]. split; [reflexivity|]. split.
  - intros role r Hin. unfold ValidateRoleCreation.
    destruct (Rules role) as [|r0 rest]; [destruct Hin | discriminate].
  - intros role r rest E.
    assert (H : ValidateRoleCreation (NewRBACValidator []) role
                = Some (roleError (Name role) r)).
    { unfold ValidateRoleCreation. now rewrite E. }
    split; [exact H|].
    unfold ValidateAllRoles. simpl. now rewrite H.
Qed.

Lemma empty_grant_covers_nothing_witness :
  ValidateRoleCreation (NewRBACValidator []) Fixtures.tokenRequest <> None
  /\ ValidateAllRoles (NewRBACValidator []) [Fixtures.tokenRequest]
     = [Fixtures.tokenRequestError].
Proof.
  split.
  - apply (proj1 (proj2 (proj2 empty_grant_covers_nothing))
             Fixtures.tokenRequest Fixtures.tokenRule).
    simpl. now left.
  - apply (proj2 (proj2 (proj2 empty_grant_covers_nothing))
             Fixtures.tokenRequest Fixtures.tokenRule []).
    reflexivity.
Defined.

(** ** Trivial rules *)

(** C10: a requested rule without API groups, resources and verbs passes
    the three containment tests of every granted rule, and is covered by
    a granted rule exactly when one of the two rules has no resource
    names or the granted names contain the requested ones.  When it names
    no instance either, every granted rule covers it: a grant request
    made of such rules passes single-role validation whenever some rule
    is granted, and, if it has a rule at all, fails when none is. *)
Theorem trivial_rule_coverage (G : list PolicyRule) (role : Role) :
  (forall g R,
     APIGroups R = [] -> Resources R = [] -> Verbs R = [] ->
     ruleCovers g R
     = negb (0 <? len (ResourceNames R))%nat
       || negb (0 <? len (ResourceNames g))%nat
       || sliceContains (ResourceNames g) (ResourceNames R))
  /\ ((forall r, In r (Rules role) ->
         APIGroups r = [] /\ Resources r = [] /\ Verbs r = []
         /\ ResourceNames r = []) ->
      (forall g r, In r (Rules role) -> ruleCovers g r = true)
      /\ (G <> [] -> ValidateRoleCreation (NewRBACValidator G) role = None)
      /\ (G = [] -> Rules role <> [] ->
          ValidateRoleCreation (NewRBACValidator G) role <> None)).
Proof.
  split.
  - intros g R Hg Hr Hv. unfold ruleCovers. rewrite Hg, Hr, Hv. simpl.
    destruct (0 <? len (ResourceNames R))%nat,
             (0 <? len (ResourceNames g))%nat; simpl; try reflexivity.
    now destruct (sliceContains (ResourceNames g) (ResourceNames R)).
  - intros Htriv.
    assert (Hall : forall g r, In r (Rules role) -> ruleCovers g r = true).
    { intros g r Hin. destruct (Htriv r Hin) as (Hg & Hr & Hv & Hn).
      unfold ruleCovers. now rewrite Hg, Hr, Hv, Hn. }
    split; [exact Hall|]. split.
    + intros HG. apply validateRules_none. intros r Hin.
      apply canGrantFrom_spec. simpl.
      destruct G as [|g rest]; [congruence|].
      exists g. split; [now left | now apply Hall].
    + intros -> Hne. unfold ValidateRoleCreation.
      destruct (Rules role); [congruence | discriminate].
Qed.

Lemma trivial_rule_coverage_witness :
  ValidateRoleCreation (NewRBACValidator Fixtures.lackingRules)
    (mkRole "nothing" [rule [] [] [] []; rule [] [] [] []]) = None
  /\ ValidateRoleCreation (NewRBACValidator [])
       (mkRole "nothing" [rule [] [] [] []; rule [] [] [] []]) <> None.
Proof.
  split.
  - apply (proj2 (trivial_rule_coverage Fixtures.lackingRules
             (mkRole "nothing" [rule [] [] [] []; rule [] [] [] []]))).
    + intros r [<-|[<-|[]]]; repeat split.
    + discriminate.
  - apply (proj2 (trivial_rule_coverage []
             (mkRole "nothing" [rule [] [] [] []; rule [] [] [] []]))).
    + intros r [<-|[<-|[]]]; repeat split.
    + reflexivity.
    + discriminate.
Defined.

(** C10 as the specification words it does not hold: a rule without API
    groups, resources and verbs that names an instance is not covered by
    a granted rule that names another one, and the grant request made of
    it fails although a rule is granted. *)
Lemma trivial_named_rule_not_covered :
  APIGroups (rule [] [] [] ["web"]) = []
  /\ Resources (rule [] [] [] ["web"]) = []
  /\ Verbs (rule [] [] [] ["web"]) = []
  /\ ruleCovers (rule ["*"] ["*"] ["*"] ["db"]) (rule [] [] [] ["web"])
     = false
  /\ ValidateRoleCreation
       (NewRBACValidator [rule ["*"] ["*"] ["*"] ["db"]])
       (mkRole "named" [rule [] [] [] ["web"]])
     = Some ("operator cannot create role named: missing permissions for "
             ++ "APIGroups:[] Resources:[] Verbs:[]").
Proof.
  repeat split.
Qed.

(** ** Further properties of the coverage test *)

Section Coverage.

Lemma bool_eq_of_iff (b b' : bool) : (b = true <-> b' = true) -> b = b'.
Proof.
  destruct b, b'; intros [H1 H2]; auto.
  symmetry. now apply H1.
Qed.

Lemma covered_trans (a b c : list string) :
  covered a b -> covered b c -> covered a c.
Proof.
  unfold covered. intros [Hab|Ha] [Hbc|Hb].
  - left. intros x Hx. now apply Hab, Hbc.
  - right. now apply Hab.
  - now right.
  - now right.
Qed.

Lemma covered_narrow (a r r' : list string) :
  incl r' r -> covered a r -> covered a r'.
Proof.
  unfold covered. intros Hi [H|H]; auto.
Qed.

Lemma ruleCovers_refl (r : PolicyRule) : ruleCovers r r = true.
Proof.
  unfold ruleCovers. rewrite !sliceContains_refl. simpl.
  now destruct (0 <? len (ResourceNames r))%nat.
Qed.

Lemma found_single_other (x y : string) :
  x <> star -> x <> y -> found [x] y = false.
Proof.
  intros Hs Hy. simpl.
  apply String.eqb_neq in Hs, Hy. now rewrite Hs, Hy.
Qed.

Lemma ruleCovers_same_triple (gs rs vs ng nr : list string) :
  ruleCovers (rule gs rs vs ng) (rule gs rs vs nr)
  = negb ((0 <? len nr)%nat && (0 <? len ng)%nat) || sliceContains ng nr.
Proof.
  unfold ruleCovers, rule.
  cbn [APIGroups Resources Verbs ResourceNames].
  rewrite !sliceContains_refl. cbn [negb].
  destruct ((0 <? len nr)%nat && (0 <? len ng)%nat); [|reflexivity].
  now destruct (sliceContains ng nr).
Qed.

Lemma granted_rule_covered_here (r : PolicyRule) (rest : list PolicyRule) :
  operatorCanGrant (NewRBACValidator (r :: rest)) r = true.
Proof.
  unfold operatorCanGrant. simpl. now rewrite ruleCovers_refl.
Qed.

End Coverage.

(** X1: the containment test is a preorder on attribute lists: every list
    contains itself, and containment passes through a middle list. *)
Theorem sliceContains_preorder :
  (forall l, sliceContains l l = true)
  /\ (forall a b c,
        sliceContains a b = true -> sliceContains b c = true ->
        sliceContains a c = true).
Proof.
  split; [apply sliceContains_refl|].
  intros a b c. rewrite !sliceContains_spec. apply covered_trans.
Qed.

Lemma sliceContains_preorder_witness :
  sliceContains ["get"; "*"] ["delete"] = true.
Proof.
  apply (proj2 sliceContains_preorder ["get"; "*"] ["list"; "*"] ["delete"]);
    reflexivity.
Defined.

(** X2: the containment test reads its two lists as sets: the order of the
    items and their repetitions change nothing. *)
Theorem sliceContains_set_semantics
    (available available' required required' : list string) :
  (forall x, In x available <-> In x available') ->
  (forall x, In x required <-> In x required') ->
  sliceContains available required = sliceContains available' required'.
Proof.
  intros Ha Hr. apply bool_eq_of_iff. rewrite !sliceContains_spec.
  unfold covered. split; intros [H|H].
  - left. intros x Hx. apply Ha, H, Hr, Hx.
  - right. now apply Ha.
  - left. intros x Hx. apply Ha, H, Hr, Hx.
  - right. now apply Ha.
Qed.

Lemma sliceContains_set_semantics_witness :
  sliceContains ["get"; "list"] ["list"; "get"; "list"]
  = sliceContains ["list"; "get"; "get"] ["get"; "list"].
Proof.
  apply sliceContains_set_semantics; intros x; simpl; tauto.
Defined.

(** X3: a rule covers itself, so every rule that is among the granted rules
    passes the coverage test. *)
Theorem granted_rule_is_grantable (G : list PolicyRule) (r : PolicyRule) :
  In r G ->
  ruleCovers r r = true /\ operatorCanGrant (NewRBACValidator G) r = true.
Proof.
  intros Hin. split; [apply ruleCovers_refl|].
  apply canGrantFrom_spec. exists r. split; [exact Hin | apply ruleCovers_refl].
Qed.

Lemma granted_rule_is_grantable_witness :
  ruleCovers Fixtures.tokenRule Fixtures.tokenRule = true
  /\ operatorCanGrant
       (NewRBACValidator (Fixtures.lackingRules ++ [Fixtures.tokenRule])%list)
       Fixtures.tokenRule = true.
Proof.
  apply granted_rule_is_grantable. simpl. right. now left.
Defined.

(** X4: granting more never revokes: a requested rule covered by the granted
    rules [G] is covered by every list that has the rules of [G], a role
    that validates against [G] validates against it, and two lists with
    the same rules, in any order, give the same answer. *)
Theorem more_grants_keep_coverage (G G' : list PolicyRule) :
  incl G G' ->
  (forall R,
     operatorCanGrant (NewRBACValidator G) R = true ->
     operatorCanGrant (NewRBACValidator G') R = true)
  /\ (forall role,
        ValidateRoleCreation (NewRBACValidator G) role = None ->
        ValidateRoleCreation (NewRBACValidator G') role = None)
  /\ (incl G' G ->
      forall R,
        operatorCanGrant (NewRBACValidator G) R
        = operatorCanGrant (NewRBACValidator G') R).
Proof.
  intros Hi.
  assert (Hmono : forall A B R, incl A B ->
            operatorCanGrant (NewRBACValidator A) R = true ->
            operatorCanGrant (NewRBACValidator B) R = true).
  { intros A B R HAB H. apply canGrantFrom_spec in H.
    destruct H as (g & Hin & Hc). apply canGrantFrom_spec.
    exists g. split; [now apply HAB | exact Hc]. }
  split; [|split].
  - intros R. now apply Hmono.
  - intros role H. apply validateRules_none. intros r Hr.
    apply (Hmono G G' r Hi).
    now apply (proj1 (validateRules_none _ (Name role) (Rules role)) H).
  - intros Hi' R. apply bool_eq_of_iff. split; now apply Hmono.
Qed.

Lemma more_grants_keep_coverage_witness :
  ValidateRoleCreation (NewRBACValidator Fixtures.fixedRules)
    Fixtures.configReader = None.
Proof.
  apply (proj1 (proj2 (more_grants_keep_coverage
                         Fixtures.lackingRules Fixtures.fixedRules
                         (incl_appl _ (incl_refl _))))).
  reflexivity.
Defined.

(** X5: coverage passes through a middle rule when the middle rule names
    instances, or the requested rule names none, or the granting rule
    names none. *)
Theorem ruleCovers_trans_named (a b c : PolicyRule) :
  ruleCovers a b = true ->
  ruleCovers b c = true ->
  ResourceNames b <> [] \/ ResourceNames c = [] \/ ResourceNames a = [] ->
  ruleCovers a c = true.
Proof.
  rewrite !ruleCovers_spec. unfold covers, namesCovered.
  intros (Hg1 & Hr1 & Hv1 & Hn1) (Hg2 & Hr2 & Hv2 & Hn2) Hside.
  repeat split; try (eapply covered_trans; eassumption).
  intros Hc Ha. destruct Hside as [Hb|[Hc'|Ha']]; try contradiction.
  eapply covered_trans; [now apply Hn1 | now apply Hn2].
Qed.

Lemma ruleCovers_trans_named_witness :
  ruleCovers (rule ["*"] ["secrets"] ["get"; "list"] ["a"; "b"; "c"])
             (rule [""] ["secrets"] ["get"] ["a"]) = true.
Proof.
  apply (ruleCovers_trans_named
           (rule ["*"] ["secrets"] ["get"; "list"] ["a"; "b"; "c"])
           (rule [""; "apps"] ["secrets"] ["get"] ["a"; "b"])
           (rule [""] ["secrets"] ["get"] ["a"])).
  - reflexivity.
  - reflexivity.
  - left. discriminate.
Defined.

(** X6: coverage does not pass through a middle rule without resource names:
    a rule restricted to the instance [x] covers the same rule without
    names, which covers the same rule restricted to another instance [y],
    yet the first does not cover the last. *)
Theorem unnamed_middle_breaks_transitivity
    (groups resources verbs : list string) (x y : string) :
  x <> "*" -> x <> y ->
  ruleCovers (rule groups resources verbs [x])
             (rule groups resources verbs []) = true
  /\ ruleCovers (rule groups resources verbs [])
                (rule groups resources verbs [y]) = true
  /\ ruleCovers (rule groups resources verbs [x])
                (rule groups resources verbs [y]) = false.
Proof.
  intros Hs Hy. rewrite !ruleCovers_same_triple.
  split; [reflexivity|]. split; [reflexivity|].
  cbn [len List.length Nat.ltb Nat.leb andb negb orb sliceContains].
  now rewrite (found_single_other x y Hs Hy).
Qed.

Lemma unnamed_middle_breaks_transitivity_witness :
  ruleCovers (rule [""] ["secrets"] ["get"] ["web"])
             (rule [""] ["secrets"] ["get"] ["db"]) = false.
Proof.
  apply (unnamed_middle_breaks_transitivity
           [""] ["secrets"] ["get"] "web" "db"); discriminate.
Defined.

(** X7: the coverage test never combines granted rules: with one granted
    rule for the resource [a] and one for the resource [b], a request for
    [a] alone and a request for [b] alone are covered, and the request for
    both is not. *)
Theorem grants_are_not_combined
    (groups verbs names : list string) (a b : string) :
  a <> b -> a <> "*" -> b <> "*" ->
  operatorCanGrant
    (NewRBACValidator [rule groups [a] verbs names; rule groups [b] verbs names])
    (rule groups [a] verbs names) = true
  /\ operatorCanGrant
       (NewRBACValidator
          [rule groups [a] verbs names; rule groups [b] verbs names])
       (rule groups [b] verbs names) = true
  /\ operatorCanGrant
       (NewRBACValidator
          [rule groups [a] verbs names; rule groups [b] verbs names])
       (rule groups [a; b] verbs names) = false.
Proof.
  intros Hab Ha Hb. split; [|split].
  - apply granted_rule_covered_here.
  - unfold operatorCanGrant. simpl operatorRules.
    cbn [canGrantFrom]. rewrite (ruleCovers_refl (rule groups [b] verbs names)).
    now destruct (ruleCovers _ _).
  - apply canGrantFrom_none. intros g [<-|[<-|[]]]; unfold ruleCovers, rule;
      cbn [APIGroups Resources Verbs ResourceNames];
      rewrite sliceContains_refl; cbn [negb sliceContains].
    + rewrite found_here, (found_single_other a b Ha Hab). reflexivity.
    + rewrite (found_single_other b a Hb (not_eq_sym Hab)). reflexivity.
Qed.

Lemma grants_are_not_combined_witness :
  operatorCanGrant
    (NewRBACValidator
       [rule [""] ["pods"] ["get"] []; rule [""] ["secrets"] ["get"] []])
    (rule [""] ["pods"; "secrets"] ["get"] []) = false.
Proof.
  apply (grants_are_not_combined [""] ["get"] [] "pods" "secrets");
    discriminate.
Defined.

(** X8: asking for less keeps coverage: when a granted rule covers a
    requested rule, it covers every rule whose API groups, resources,
    verbs and resource names are taken from those of the requested rule,
    and the coverage test accepts that rule too. *)
Theorem narrower_request_stays_covered
    (G : list PolicyRule) (R R' : PolicyRule) :
  incl (APIGroups R') (APIGroups R) ->
  incl (Resources R') (Resources R) ->
  incl (Verbs R') (Verbs R) ->
  incl (ResourceNames R') (ResourceNames R) ->
  (forall g, ruleCovers g R = true -> ruleCovers g R' = true)
  /\ (operatorCanGrant (NewRBACValidator G) R = true ->
      operatorCanGrant (NewRBACValidator G) R' = true).
Proof.
  intros Hg Hr Hv Hn.
  assert (Hone : forall g, ruleCovers g R = true -> ruleCovers g R' = true).
  { intros g. rewrite !ruleCovers_spec. unfold covers, namesCovered.
    intros (Cg & Cr & Cv & Cn).
    repeat split; try (eapply covered_narrow; eassumption).
    intros Hne' Hneg. apply (covered_narrow _ _ _ Hn). apply Cn; [|exact Hneg].
    intros E. rewrite E in Hn. destruct (ResourceNames R') as [|n rest].
    - now apply Hne'.
    - now apply (Hn n); left. }
  split; [exact Hone|].
  intros H. apply canGrantFrom_spec in H. destruct H as (g & Hin & Hc).
  apply canGrantFrom_spec. exists g. split; [exact Hin | now apply Hone].
Qed.

Lemma narrower_request_stays_covered_witness :
  operatorCanGrant (NewRBACValidator Fixtures.lackingRules)
    (rule [""] ["configmaps"] ["patch"] []) = true.
Proof.
  apply (proj2 (narrower_request_stays_covered Fixtures.lackingRules
                  (rule [""] ["serviceaccounts"; "configmaps"]
                     ["get"; "patch"] [])
                  (rule [""] ["configmaps"] ["patch"] [])
                  ltac:(intros x [<-|[]]; simpl; tauto)
                  ltac:(intros x [<-|[]]; simpl; tauto)
                  ltac:(intros x [<-|[]]; simpl; tauto)
                  ltac:(intros x []))).
  reflexivity.
Defined.

(** ** How the operations compose *)

Section Composition.

Variable v : RBACValidator.

Lemma validateRules_hd_filter (name : string) (rules : list PolicyRule) :
  validateRules v name rules
  = option_map (roleError name)
      (hd_error (filter (fun r => negb (operatorCanGrant v r)) rules)).
Proof.
  induction rules as [|r rest IH]; simpl; [reflexivity|].
  now destruct (operatorCanGrant v r).
Qed.

Lemma filter_rejected_idem (rules : list PolicyRule) :
  filter (fun r => negb (operatorCanGrant v r))
    (filter (fun r => negb (operatorCanGrant v r)) rules)
  = filter (fun r => negb (operatorCanGrant v r)) rules.
Proof.
  induction rules as [|r rest IH]; simpl; [reflexivity|].
  destruct (operatorCanGrant v r) eqn:E; simpl; [exact IH|].
  now rewrite E, IH.
Qed.

Lemma collected_app {A B : Type} (f : A -> option B) (l l' : list A) :
  collected f (l ++ l') = (collected f l ++ collected f l')%list.
Proof.
  unfold collected. apply flat_map_app.
Qed.

Lemma collected_nil_iff {A B : Type} (f : A -> option B) (l : list A) :
  collected f l = [] <-> forall a, In a l -> f a = None.
Proof.
  split; [|apply collected_none].
  induction l as [|a l IH]; simpl; intros H x Hx; [destruct Hx|].
  destruct (f a) eqn:E; [discriminate|].
  destruct Hx as [<-|Hx]; [exact E | now apply IH].
Qed.

Lemma collected_length_le {A B : Type} (f : A -> option B) (l : list A) :
  List.length (collected f l) <= List.length l.
Proof.
  induction l as [|a l IH]; simpl; [lia|].
  destruct (f a); simpl; lia.
Qed.

Lemma validation_agrees_with_missing_aux (role : Role) :
  ValidateRoleCreation v role = None <-> GetMissingPermissions v role = [].
Proof.
  rewrite GetMissingPermissions_filter. unfold ValidateRoleCreation.
  rewrite validateRules_hd_filter.
  destruct (filter _ (Rules role)); simpl; split; auto; discriminate.
Qed.

End Composition.

(** X9: validation and extraction agree: the error of single-role validation
    is the error for the first rule that missing-permission extraction
    returns, and there is no error exactly when extraction returns
    nothing. *)
Theorem validation_agrees_with_missing (v : RBACValidator) (role : Role) :
  ValidateRoleCreation v role
  = option_map (roleError (Name role))
      (hd_error (GetMissingPermissions v role))
  /\ (ValidateRoleCreation v role = None
      <-> GetMissingPermissions v role = []).
Proof.
  rewrite GetMissingPermissions_filter. unfold ValidateRoleCreation.
  rewrite validateRules_hd_filter. split; [reflexivity|].
  destruct (filter _ (Rules role)); simpl; split; auto; discriminate.
Qed.

(** X10: aggregate validation returns no error exactly when extraction returns
    nothing for every grant request, and never more errors than there are
    grant requests. *)
Theorem aggregate_agrees_with_missing
    (v : RBACValidator) (roles : list Role) :
  (ValidateAllRoles v roles = []
   <-> forall role, In role roles -> GetMissingPermissions v role = [])
  /\ List.length (ValidateAllRoles v roles) <= List.length roles.
Proof.
  rewrite ValidateAllRoles_collected. split.
  - rewrite collected_nil_iff. split; intros H role Hin.
    + now apply validation_agrees_with_missing_aux, H.
    + now apply validation_agrees_with_missing_aux, H.
  - apply collected_length_le.
Qed.

(** X11: granting what is missing repairs the role: once the rules returned
    by missing-permission extraction are added to the granted rules, the
    grant request validates and nothing is missing any more. *)
Theorem granting_missing_rules_fixes_role
    (G : list PolicyRule) (role : Role) :
  ValidateRoleCreation
    (NewRBACValidator
       (G ++ GetMissingPermissions (NewRBACValidator G) role)%list) role
  = None
  /\ GetMissingPermissions
       (NewRBACValidator
          (G ++ GetMissingPermissions (NewRBACValidator G) role)%list) role
     = [].
Proof.
  assert (H : ValidateRoleCreation
                (NewRBACValidator
                   (G ++ GetMissingPermissions (NewRBACValidator G) role)%list)
                role = None).
  { apply validateRules_none. intros r Hr.
    apply canGrantFrom_spec. simpl operatorRules.
    destruct (operatorCanGrant (NewRBACValidator G) r) eqn:E.
    - apply canGrantFrom_spec in E. destruct E as (g & Hin & Hc).
      exists g. split; [apply in_or_app; now left | exact Hc].
    - exists r. split; [|apply ruleCovers_refl].
      apply in_or_app. right. rewrite GetMissingPermissions_filter.
      apply filter_In. split; [exact Hr | now rewrite E]. }
  split; [exact H|].
  now apply validation_agrees_with_missing_aux.
Qed.

(** X12: the rules extraction returns are rules of the grant request that the
    coverage test rejects; extracting again from them returns them
    unchanged, and a grant request made of them fails validation with the
    error of the original one. *)
Theorem missing_rules_revalidate_alike (v : RBACValidator) (role : Role) :
  (forall r, In r (GetMissingPermissions v role) ->
     In r (Rules role) /\ operatorCanGrant v r = false)
  /\ GetMissingPermissions v
       (mkRole (Name role) (GetMissingPermissions v role))
     = GetMissingPermissions v role
  /\ ValidateRoleCreation v
       (mkRole (Name role) (GetMissingPermissions v role))
     = ValidateRoleCreation v role.
Proof.
  split; [|split].
  - intros r. rewrite GetMissingPermissions_filter, filter_In.
    intros (Hin & Hr). split; [exact Hin|].
    now destruct (operatorCanGrant v r).
  - rewrite !GetMissingPermissions_filter. simpl Rules.
    apply filter_rejected_idem.
  - unfold ValidateRoleCreation. simpl Name. simpl Rules.
    rewrite !validateRules_hd_filter, GetMissingPermissions_filter.
    now rewrite filter_rejected_idem.
Qed.

Lemma missing_rules_revalidate_alike_witness :
  In (rule [""] ["pods/exec"] ["create"] []) (Rules Fixtures.podExec)
  /\ operatorCanGrant (NewRBACValidator Fixtures.lackingRules)
       (rule [""] ["pods/exec"] ["create"] []) = false.
Proof.
  apply (proj1 (missing_rules_revalidate_alike
                  (NewRBACValidator Fixtures.lackingRules) Fixtures.podExec)).
  simpl. now left.
Defined.

(** X13: batches compose: aggregate validation of two sequences of grant
    requests one after the other returns the errors of the first followed
    by those of the second, and extraction over two runs of rules returns
    the missing rules of the first followed by those of the second. *)
Theorem batches_compose (v : RBACValidator) :
  (forall roles roles',
     ValidateAllRoles v (roles ++ roles')
     = (ValidateAllRoles v roles ++ ValidateAllRoles v roles')%list)
  /\ (forall name rules rules',
        GetMissingPermissions v (mkRole name (rules ++ rules'))
        = (GetMissingPermissions v (mkRole name rules)
           ++ GetMissingPermissions v (mkRole name rules'))%list)
  /\ (forall rules rules',
        SuggestKubebuilderAnnotation v (rules ++ rules')
        = (SuggestKubebuilderAnnotation v rules
           ++ SuggestKubebuilderAnnotation v rules')%list).
Proof.
  split; [|split].
  - intros roles roles'. rewrite !ValidateAllRoles_collected.
    apply collected_app.
  - intros name rules rules'. rewrite !GetMissingPermissions_filter.
    apply filter_app.
  - intros rules rules'. rewrite !SuggestKubebuilderAnnotation_map.
    apply map_app.
Qed.

(** X14: the workflow of the tests: rendering the missing rules of a grant
    request gives one suggestion for each rule of the request that the
    coverage test rejects, so there is no suggestion exactly when the
    request validates. *)
Theorem suggestions_exist_iff_validation_fails
    (v : RBACValidator) (role : Role) :
  List.length (SuggestKubebuilderAnnotation v (GetMissingPermissions v role))
  = List.length
      (filter (fun r => negb (operatorCanGrant v r)) (Rules role))
  /\ (SuggestKubebuilderAnnotation v (GetMissingPermissions v role) = []
      <-> ValidateRoleCreation v role = None).
Proof.
  rewrite SuggestKubebuilderAnnotation_map. split.
  - now rewrite length_map, GetMissingPermissions_filter.
  - rewrite validation_agrees_with_missing_aux.
    destruct (GetMissingPermissions v role); simpl; split; auto; discriminate.
Qed.


(** ** The substring search of the tests *)

Section Search.

Lemma length_append (a b : string) :
  String.length (a ++ b) = String.length a + String.length b.
Proof.
  induction a as [|c a IH]; simpl; [reflexivity | now rewrite IH].
Qed.

Lemma substring_prefix (substr post : string) :
  substring 0 (String.length substr) (substr ++ post) = substr.
Proof.
  induction substr as [|c t IH]; simpl.
  - now destruct post.
  - now rewrite IH.
Qed.

Lemma substring_skip (pre t : string) (n : nat) :
  substring (String.length pre) n (pre ++ t) = substring 0 n t.
Proof.
  induction pre as [|c pre IH]; simpl; [reflexivity | exact IH].
Qed.

Lemma substring_is_prefix (substr s : string) :
  substring 0 (String.length substr) s = substr ->
  exists post, s = substr ++ post.
Proof.
  revert s. induction substr as [|c t IH]; intros s; simpl.
  - intros _. now exists s.
  - destruct s as [|c' s']; [discriminate|].
    intros H. injection H as -> H. destruct (IH s' H) as (post & ->).
    now exists post.
Qed.

Lemma occursAt_substring (i : nat) (substr s : string) :
  occursAt i substr s -> substring i (String.length substr) s = substr.
Proof.
  intros (pre & post & -> & <-).
  rewrite substring_skip. apply substring_prefix.
Qed.

Lemma substring_occursAt (i : nat) (substr s : string) :
  i + String.length substr <= String.length s ->
  substring i (String.length substr) s = substr ->
  occursAt i substr s.
Proof.
  revert s. induction i as [|i IH]; intros s Hlen H.
  - destruct (substring_is_prefix substr s H) as (post & ->).
    now exists "", post.
  - destruct s as [|c s']; simpl in Hlen; [lia|].
    simpl in H. destruct (IH s') as (pre & post & -> & Hpre); [lia | exact H |].
    exists (String c pre), post. split; [reflexivity | simpl; now rewrite Hpre].
Qed.

Lemma occursAt_bound (i : nat) (substr s : string) :
  occursAt i substr s -> i + String.length substr <= String.length s.
Proof.
  intros (pre & post & -> & <-). rewrite !length_append. lia.
Qed.

Lemma occurs_occursAt (substr s : string) :
  occurs substr s <-> exists i, occursAt i substr s.
Proof.
  split.
  - intros (pre & post & ->). exists (String.length pre), pre, post. auto.
  - intros (i & pre & post & -> & _). now exists pre, post.
Qed.

Lemma slice_in_range (s substr : string) (i : Z) :
  (0 <= i)%Z -> (i <= strlen s - strlen substr)%Z ->
  slice s i (i + strlen substr)
  = Ok (substring (Z.to_nat i) (String.length substr) s).
Proof.
  intros H0 Hi. unfold slice, strlen in *.
  replace ((0 <=? i) && (i <=? i + Z.of_nat (String.length substr))
           && (i + Z.of_nat (String.length substr)
               <=? Z.of_nat (String.length s)))%Z with true.
  - f_equal. f_equal. lia.
  - symmetry. rewrite !andb_true_iff, !Z.leb_le. lia.
Qed.

Lemma findLoop_spec (fuel : nat) (s substr : string) :
  forall i : Z,
    (0 <= i)%Z -> 1 <= fuel ->
    (strlen s + 2 <= Z.of_nat fuel + i)%Z ->
    exists r,
      findLoop fuel s substr i = Ok r
      /\ ((r = (-1)%Z
           /\ forall j, (i <= j)%Z -> ~ occursAt (Z.to_nat j) substr s)
          \/ ((i <= r)%Z
              /\ occursAt (Z.to_nat r) substr s
              /\ forall j, (i <= j < r)%Z ->
                           ~ occursAt (Z.to_nat j) substr s)).
Proof.
  induction fuel as [|fuel IH]; intros i H0 Hfuel Hsum; [lia|].
  cbn [findLoop].
  destruct (i <=? strlen s - strlen substr)%Z eqn:Eguard.
  - apply Z.leb_le in Eguard.
    rewrite (slice_in_range s substr i H0 Eguard).
    destruct (substring (Z.to_nat i) (String.length substr) s =? substr)
      eqn:Eeq.
    + apply String.eqb_eq in Eeq. exists i. split; [reflexivity|].
      right. split; [lia|]. split; [|intros j Hj; lia].
      apply substring_occursAt; [|exact Eeq]. unfold strlen in Eguard. lia.
    + apply String.eqb_neq in Eeq.
      assert (Hlen : (0 <= strlen substr)%Z) by (unfold strlen; lia).
      destruct (IH (i + 1)%Z) as (r & Hr & Hcase); [lia | lia | lia |].
      exists r. split; [exact Hr|].
      assert (Hhere : ~ occursAt (Z.to_nat i) substr s).
      { intros Hocc. now apply Eeq, occursAt_substring. }
      destruct Hcase as [(-> & Hno)|(Hle & Hocc & Hno)].
      * left. split; [reflexivity|]. intros j Hj.
        destruct (Z.eq_dec j i) as [->|Hne]; [exact Hhere | apply Hno; lia].
      * right. split; [lia|]. split; [exact Hocc|]. intros j Hj.
        destruct (Z.eq_dec j i) as [->|Hne]; [exact Hhere | apply Hno; lia].
  - apply Z.leb_gt in Eguard. exists (-1)%Z. split; [reflexivity|].
    left. split; [reflexivity|]. intros j Hj Hocc.
    apply occursAt_bound in Hocc. unfold strlen in Eguard. lia.
Qed.

Lemma findInString_spec (s substr : string) :
  exists r,
    findInString s substr = Ok r
    /\ ((r = (-1)%Z /\ ~ occurs substr s)
        \/ ((0 <= r)%Z
            /\ occursAt (Z.to_nat r) substr s
            /\ forall j, j < Z.to_nat r -> ~ occursAt j substr s)).
Proof.
  destruct (findLoop_spec (String.length s + 2) s substr 0%Z)
    as (r & Hr & Hcase); [lia | lia | unfold strlen; lia |].
  exists r. split; [exact Hr|].
  destruct Hcase as [(-> & Hno)|(Hle & Hocc & Hno)].
  - left. split; [reflexivity|]. rewrite occurs_occursAt. intros (i & Hi).
    apply (Hno (Z.of_nat i)); [lia|]. now rewrite Nat2Z.id.
  - right. split; [exact Hle|]. split; [exact Hocc|]. intros j Hj.
    rewrite <- (Nat2Z.id j). apply Hno. lia.
Qed.

Lemma containsString_spec (s substr : string) :
  exists b, containsString s substr = Ok b /\ (b = true <-> occurs substr s).
Proof.
  unfold containsString.
  destruct (strlen s >=? strlen substr)%Z eqn:Ege.
  - destruct (s =? substr) eqn:Eeq.
    + apply String.eqb_eq in Eeq. subst s. exists true. split; [reflexivity|].
      split; [|reflexivity]. intros _. exists "", "". simpl.
      now rewrite append_empty_r.
    + apply String.eqb_neq in Eeq.
      destruct (strlen s >? strlen substr)%Z eqn:Egt.
      * destruct (findInString_spec s substr) as (r & -> & Hcase).
        exists (r >=? 0)%Z. split; [reflexivity|].
        destruct Hcase as [(-> & Hno)|(Hle & Hocc & _)].
        -- simpl. split; [discriminate | intros H; now elim Hno].
        -- split.
           ++ intros _. apply occurs_occursAt. now exists (Z.to_nat r).
           ++ intros _. apply Z.geb_le. lia.
      * exists false. split; [reflexivity|]. split; [discriminate|].
        intros (pre & post & E). exfalso. apply Eeq.
        assert (Hlen := f_equal String.length E).
        rewrite !length_append in Hlen.
        rewrite Z.gtb_ltb in Egt. apply Z.ltb_ge in Egt.
        unfold strlen in Egt.
        destruct pre; [|simpl in Hlen; lia].
        destruct post; [|simpl in Hlen; lia].
        rewrite E. simpl. apply append_empty_r.
  - exists false. split; [reflexivity|]. split; [discriminate|].
    intros (pre & post & E).
    assert (Hlen := f_equal String.length E).
    rewrite !length_append in Hlen.
    rewrite Z.geb_leb in Ege. apply Z.leb_gt in Ege. unfold strlen in Ege. lia.
Qed.

End Search.

(** X16: [findInString] always returns, without slicing out of range: it
    returns -1 exactly when [substr] does not occur in [s], and otherwise
    the index of the first occurrence. *)
Theorem findInString_first_occurrence (s substr : string) :
  exists r,
    findInString s substr = Ok r
    /\ (-1 <= r <= strlen s)%Z
    /\ (r = (-1)%Z <-> ~ occurs substr s)
    /\ ((0 <= r)%Z ->
        occursAt (Z.to_nat r) substr s
        /\ forall j, j < Z.to_nat r -> ~ occursAt j substr s).
Proof.
  destruct (findInString_spec s substr) as (r & Hr & Hcase).
  exists r. split; [exact Hr|].
  destruct Hcase as [(-> & Hno)|(Hle & Hocc & Hfirst)].
  - split; [unfold strlen; lia|]. split; [tauto|]. intros H. lia.
  - assert (Hb := occursAt_bound _ _ _ Hocc).
    split; [unfold strlen; lia|]. split; [|auto].
    split; [lia|]. intros Hno. elim Hno.
    apply occurs_occursAt. now exists (Z.to_nat r).
Qed.

Lemma findInString_first_occurrence_witness :
  occursAt 9 "cannot" "operator cannot"
  /\ forall j, j < 9 -> ~ occursAt j "cannot" "operator cannot".
Proof.
  destruct (findInString_first_occurrence "operator cannot" "cannot")
    as (r & Hr & _ & _ & H).
  vm_compute in Hr. injection Hr as <-.
  apply H. lia.
Defined.

(** X17: [containsString] always returns, and answers true exactly when
    [substr] occurs in [s]; in particular it answers false without
    searching when [substr] is the longer of the two. *)
Theorem containsString_iff_occurs (s substr : string) :
  (occurs substr s -> containsString s substr = Ok true)
  /\ (~ occurs substr s -> containsString s substr = Ok false)
  /\ ((strlen s < strlen substr)%Z -> containsString s substr = Ok false).
Proof.
  destruct (containsString_spec s substr) as (b & Hb & Hiff).
  rewrite Hb. split; [|split].
  - intros H. f_equal. now apply Hiff.
  - intros H. destruct b; [|reflexivity]. elim H. now apply Hiff.
  - intros Hlt. destruct b; [|reflexivity]. exfalso.
    destruct (proj1 Hiff eq_refl) as (pre & post & E).
    apply (f_equal String.length) in E. rewrite !length_append in E.
    unfold strlen in Hlt. lia.
Qed.

Lemma containsString_iff_occurs_witness :
  containsString "role x: missing permissions for y" "missing permissions for"
  = Ok true
  /\ containsString "get" "forget" = Ok false.
Proof.
  split.
  - apply (proj1 (containsString_iff_occurs
                    "role x: missing permissions for y"
                    "missing permissions for")).
    now exists "role x: ", " y".
  - apply (proj2 (proj2 (containsString_iff_occurs "get" "forget"))).
    reflexivity.
Defined.

(** X18: the assertion of the tests holds for every failure: an error of
    single-role validation contains the text [missing permissions for],
    as [containsString] checks it, and the name of the grant request. *)
Theorem validation_error_contains_marker
    (v : RBACValidator) (role : Role) (err : error) :
  ValidateRoleCreation v role = Some err ->
  containsString err "missing permissions for" = Ok true
  /\ containsString err (Name role) = Ok true.
Proof.
  unfold ValidateRoleCreation. rewrite validateRules_hd_filter.
  destruct (hd_error _) as [r|]; [|discriminate].
  simpl. intros H. injection H as <-.
  assert (Hyes : forall sub, occurs sub (roleError (Name role) r) ->
                   containsString (roleError (Name role) r) sub = Ok true).
  { intros sub Hocc.
    destruct (containsString_spec (roleError (Name role) r) sub)
      as (b & -> & Hiff).
    f_equal. now apply Hiff. }
  split; apply Hyes; unfold roleError.
  - exists ("operator cannot create role " ++ Name role ++ ": "),
           (" " ++ formatPolicyRule r).
    rewrite !append_assoc. reflexivity.
  - exists "operator cannot create role ",
           (": missing permissions for " ++ formatPolicyRule r).
    reflexivity.
Qed.

Lemma validation_error_contains_marker_witness :
  containsString Fixtures.tokenRequestError "missing permissions for"
  = Ok true
  /\ containsString Fixtures.tokenRequestError
       (Name Fixtures.tokenRequest) = Ok true.
Proof.
  apply (validation_error_contains_marker
           (NewRBACValidator Fixtures.lackingRules) Fixtures.tokenRequest).
  reflexivity.
Defined.

Example findInString_examples :
  findInString "operator cannot" "cannot" = Ok 9%Z
  /\ findInString "cannot" "operator cannot" = Ok (-1)%Z
  /\ findInString "" "" = Ok 0%Z
  /\ findInString "abab" "ab" = Ok 0%Z
  /\ containsString "abc" "" = Ok true
  /\ containsString "" "a" = Ok false.
Proof. repeat split. Qed.

(** ** Loading the role catalog *)

Section CatalogFacts.

Variable bytes : Type.
Variable Asset : string -> bytes + error.
Variable Unmarshal : bytes -> Role -> Role * option error.

Local Abbreviation parse := (E2E.parseRoleFromYAML bytes Unmarshal).
Local Abbreviation load := (E2E.loadRoles bytes Asset Unmarshal).
Local Abbreviation skipped := (E2E.skipped bytes Asset).
Local Abbreviation loaded := (E2E.loaded bytes Asset Unmarshal).
Local Abbreviation wellFormed := (E2E.wellFormed bytes Asset Unmarshal).

Lemma loadRoles_wellFormed (files : list string) :
  wellFormed files ->
  forall roles log,
    load files roles log
    = ((log ++ skipped files)%list, inl (roles ++ loaded files)%list).
Proof.
  induction files as [|f rest IH]; intros Hwf roles log.
  - simpl. now rewrite !app_nil_r.
  - assert (Hrest : wellFormed rest).
    { intros g data Hin. apply Hwf. now right. }
    cbn [E2E.loadRoles E2E.skipped E2E.loaded flat_map].
    destruct (Asset f) as [data|err] eqn:EA.
    + assert (Hp := Hwf f data (or_introl eq_refl) EA).
      destruct (E2E.parseRoleFromYAML bytes Unmarshal data) as [role e].
      simpl in Hp. subst e. rewrite (IH Hrest). simpl.
      now rewrite <- app_assoc.
    + rewrite (IH Hrest). simpl. now rewrite <- app_assoc.
Qed.

Lemma loadRoles_bad (pre post : list string) (f : string) (data : bytes)
    (err : error) :
  wellFormed pre ->
  Asset f = inl data ->
  snd (parse data) = Some err ->
  forall roles log,
    load (pre ++ f :: post) roles log = ((log ++ skipped pre)%list, inr err).
Proof.
  intros Hwf EA Hbad. induction pre as [|g pre IH]; intros roles log.
  - cbn [app E2E.loadRoles E2E.skipped flat_map]. rewrite EA.
    destruct (E2E.parseRoleFromYAML bytes Unmarshal data) as [role e].
    simpl in Hbad. subst e. now rewrite app_nil_r.
  - assert (Hrest : wellFormed pre).
    { intros h d Hin. apply Hwf. now right. }
    cbn [app E2E.loadRoles E2E.skipped flat_map].
    destruct (Asset g) as [d|e] eqn:EG.
    + assert (Hp := Hwf g d (or_introl eq_refl) EG).
      destruct (E2E.parseRoleFromYAML bytes Unmarshal d) as [role e].
      simpl in Hp. subst e. rewrite (IH Hrest). now rewrite app_nil_l.
    + rewrite (IH Hrest). simpl. now rewrite <- app_assoc.
Qed.

Lemma loaded_skipped_length (files : list string) :
  List.length (loaded files) + List.length (skipped files)
  = List.length files.
Proof.
  unfold E2E.loaded, E2E.skipped.
  induction files as [|f rest IH]; [reflexivity|].
  cbn [flat_map]. destruct (Asset f); cbn [app List.length]; lia.
Qed.

(** X19: when every manifest that is there parses, [getAllRolesToCreate]
    returns no error: it returns the roles of the manifests that are
    there, in the order of the catalog, and logs one line for each
    manifest that is not; a missing manifest is skipped, not reported as
    a failure, so at most six roles come back. *)
Theorem getAllRolesToCreate_skips_missing_manifests :
  wellFormed E2E.roleFiles ->
  E2E.getAllRolesToCreate bytes Asset Unmarshal
  = (skipped E2E.roleFiles, inl (loaded E2E.roleFiles))
  /\ List.length (loaded E2E.roleFiles)
     + List.length (skipped E2E.roleFiles) = 6.
Proof.
  intros Hwf. split.
  - unfold E2E.getAllRolesToCreate.
    exact (loadRoles_wellFormed E2E.roleFiles Hwf [] []).
  - exact (loaded_skipped_length E2E.roleFiles).
Qed.

(** X20: a manifest that is there and does not parse stops the load: when the
    manifests before it in the catalog are missing or parse,
    [getAllRolesToCreate] returns its parse error and no role, whatever
    the manifests after it hold. *)
Theorem getAllRolesToCreate_stops_at_bad_manifest
    (pre post : list string) (f : string) (data : bytes) (err : error) :
  E2E.roleFiles = (pre ++ f :: post)%list ->
  wellFormed pre ->
  Asset f = inl data ->
  snd (parse data) = Some err ->
  E2E.getAllRolesToCreate bytes Asset Unmarshal = (skipped pre, inr err).
Proof.
  intros E Hwf EA Hbad. unfold E2E.getAllRolesToCreate. rewrite E.
  exact (loadRoles_bad pre post f data err Hwf EA Hbad [] []).
Qed.

End CatalogFacts.

Lemma getAllRolesToCreate_skips_missing_manifests_witness :
  E2E.getAllRolesToCreate string
    (fun f => if f =? "istio-csr/cert-manager-istio-csr-role.yaml"
              then inl "istio-csr" else inr "not found")
    (fun data _ => (mkRole data [], None))
  = (["Skipping cert-manager-deployment/controller/cert-manager-tokenrequest-role.yaml: not found";
      "Skipping cert-manager-deployment/controller/cert-manager-leaderelection-role.yaml: not found";
      "Skipping cert-manager-deployment/webhook/cert-manager-webhook-dynamic-serving-role.yaml: not found";
      "Skipping cert-manager-deployment/cainjector/cert-manager-cainjector-leaderelection-role.yaml: not found";
      "Skipping istio-csr/cert-manager-istio-csr-leases-role.yaml: not found"],
     inl [mkRole "istio-csr" []]).
Proof.
  apply (getAllRolesToCreate_skips_missing_manifests string
           (fun f => if f =? "istio-csr/cert-manager-istio-csr-role.yaml"
                     then inl "istio-csr" else inr "not found")
           (fun data _ => (mkRole data [], None))).
  intros f data _ _. reflexivity.
Defined.

Lemma getAllRolesToCreate_stops_at_bad_manifest_witness :
  E2E.getAllRolesToCreate string
    (fun f => if f =? "cert-manager-deployment/controller/cert-manager-tokenrequest-role.yaml"
              then inr "not found" else inl f)
    (fun data role =>
       if data =? "cert-manager-deployment/controller/cert-manager-leaderelection-role.yaml"
       then (role, Some "yaml: line 3: bad indentation")
       else (mkRole data [], None))
  = (["Skipping cert-manager-deployment/controller/cert-manager-tokenrequest-role.yaml: not found"],
     inr "yaml: line 3: bad indentation").
Proof.
  apply (getAllRolesToCreate_stops_at_bad_manifest string
           (fun f => if f =? "cert-manager-deployment/controller/cert-manager-tokenrequest-role.yaml"
                     then inr "not found" else inl f)
           (fun data role =>
              if data =? "cert-manager-deployment/controller/cert-manager-leaderelection-role.yaml"
              then (role, Some "yaml: line 3: bad indentation")
              else (mkRole data [], None))
           ["cert-manager-deployment/controller/cert-manager-tokenrequest-role.yaml"]
           ["cert-manager-deployment/webhook/cert-manager-webhook-dynamic-serving-role.yaml";
            "cert-manager-deployment/cainjector/cert-manager-cainjector-leaderelection-role.yaml";
            "istio-csr/cert-manager-istio-csr-role.yaml";
            "istio-csr/cert-manager-istio-csr-leases-role.yaml"]
           "cert-manager-deployment/controller/cert-manager-leaderelection-role.yaml"
           "cert-manager-deployment/controller/cert-manager-leaderelection-role.yaml"
           "yaml: line 3: bad indentation").
  - reflexivity.
  - intros f data [<-|[]]. discriminate.
  - reflexivity.
  - reflexivity.
Defined.

(** ** Wildcards on the requested side, and joined grants *)

(** X21: the wildcard has no special meaning in a requested rule: a
    granted rule covers a requested rule that lists the wildcard among its
    API groups, resources or verbs only if it lists the wildcard itself
    there. *)
Theorem requested_wildcard_needs_granted_wildcard (g R : PolicyRule) :
  ruleCovers g R = true ->
  (In "*" (APIGroups R) -> In "*" (APIGroups g))
  /\ (In "*" (Resources R) -> In "*" (Resources g))
  /\ (In "*" (Verbs R) -> In "*" (Verbs g)).
Proof.
  rewrite ruleCovers_spec. unfold covers, covered.
  intros ([Hg|Hg] & [Hr|Hr] & [Hv|Hv] & _); repeat split; auto.
Qed.

Lemma requested_wildcard_needs_granted_wildcard_witness :
  In "*" (Verbs (rule [""] ["pods"; "secrets"] ["get"; "*"] [])).
Proof.
  apply (proj2 (proj2 (requested_wildcard_needs_granted_wildcard
                         (rule [""] ["pods"; "secrets"] ["get"; "*"] [])
                         (rule [""] ["pods"] ["*"] ["web"])
                         eq_refl))).
  simpl. now left.
Defined.

(** X22: the coverage test over two lists of granted rules put together
    accepts a requested rule exactly when the test over one of the two
    lists does. *)
Theorem coverage_over_joined_grants (G G' : list PolicyRule) (R : PolicyRule) :
  operatorCanGrant (NewRBACValidator (G ++ G')) R
  = operatorCanGrant (NewRBACValidator G) R
    || operatorCanGrant (NewRBACValidator G') R.
Proof.
  unfold operatorCanGrant. simpl operatorRules.
  induction G as [|g G IH]; [reflexivity|].
  cbn [app canGrantFrom]. rewrite IH.
  now destruct (ruleCovers g R).
Qed.
